(** * Smart Kitchen backend: reservations, availability and door access

    A shallow embedding of [src/backend/fastapi_app.py].  The DuckDB tables
    are lists of rows kept in insertion order, the in-process session
    dictionary [tokens] is a finite map, TEXT columns are strings compared
    byte-wise (the comparison SQL applies to [start_time] and [end_time]),
    and face embeddings are lists of binary64 floats.  Every handler is a
    function from the state before the request to a result and the state
    after it; the handlers contain no [await] between their reads and their
    writes, so the event loop runs each of them to completion. *)

From Stdlib Require Import ZArith String Ascii List Bool Lia Floats.
From Stdlib Require Import OrderedTypeEx.
From stdpp Require Import gmap strings.
Import ListNotations.

Local Open Scope string_scope.

(** ** TEXT comparison *)

Module Text.

(** SQL [a < b] and [a <= b] on TEXT values. *)
Definition lt (a b : string) : bool := String.ltb a b.
Definition le (a b : string) : bool := String.leb a b.

End Text.

(** ** Rows of the tables created by [init_db]

    Only the columns read by the handlers modelled below are kept: the
    theme columns of [users], the [kitchens] table and [created_at] are
    never consulted by booking, cancellation, availability or the door
    check. *)

Inductive Status := confirmed | cancelled.

Definition Status_eqb (a b : Status) : bool :=
  match a, b with
  | confirmed, confirmed | cancelled, cancelled => true
  | _, _ => false
  end.

Record User := mkUser {
  u_isic_number : string;
  u_name : string;
  u_face_embedding : option (list float)   (* JSON, NULL until enrolment *)
}.

Record Appliance := mkAppliance {
  a_id : string;                            (* PRIMARY KEY *)
  a_kitchen_id : Z;
  a_type : string;
  a_name : string
}.

Record Reservation := mkReservation {
  r_id : string;                            (* PRIMARY KEY *)
  r_isic_number : string;
  r_date : string;
  r_start_time : string;
  r_end_time : string;
  r_kitchen_id : Z;
  r_appliance_id : string;
  r_appliance_type : string;
  r_status : Status
}.

(** The process state: the global [tokens] dictionary and the tables. *)
Record State := mkState {
  tokens : gmap string string;
  users : list User;
  appliances : list Appliance;
  reservations : list Reservation
}.

Definition set_tokens (st : State) (t : gmap string string) : State :=
  mkState t (users st) (appliances st) (reservations st).

Definition set_reservations (st : State) (rs : list Reservation) : State :=
  mkState (tokens st) (users st) (appliances st) rs.

(** ** Provisioning ([init_db]) *)

Definition decimal_digit (n : nat) : string :=
  String (ascii_of_nat (48 + n)) EmptyString.

Definition appliance_kinds : list (string * string) :=
  [ ("microwave", "Microwave 1");
    ("microwave", "Microwave 2");
    ("oven", "Oven");
    ("stove_left", "Stove Left");
    ("stove_right", "Stove Right") ].

(** [app_id = f'k{floor}-{app_type}{idx+1}']; floors and indices are single
    digits here. *)
Definition floor_appliances (floor : nat) : list Appliance :=
  imap (fun idx '(app_type, app_name) =>
          mkAppliance ("k" +:+ decimal_digit floor +:+ "-" +:+ app_type
                           +:+ decimal_digit (idx + 1))
                      (Z.of_nat floor) app_type app_name)
       appliance_kinds.

(** [INSERT OR IGNORE]: a row whose key is present is skipped. *)
Definition insert_or_ignore (a : Appliance) (tbl : list Appliance) : list Appliance :=
  if existsb (fun b => String.eqb (a_id b) (a_id a)) tbl then tbl else (tbl ++ [a])%list.

Definition init_db (st : State) : State :=
  mkState (tokens st) (users st)
          (fold_left (fun tbl a => insert_or_ignore a tbl)
                     (flat_map floor_appliances (seq 1 7)) (appliances st))
          (reservations st).

(** A freshly created database file, with the given open sessions. *)
Definition fresh (t : gmap string string) : State :=
  init_db (mkState t [] [] []).

(** ** Results of a request *)

Inductive Exn :=
| HTTPException (status_code : Z) (detail : string)
| ConversionException   (* DuckDB: value out of range for its column *)
| ConstraintException.  (* DuckDB: duplicate key on INSERT *)

Inductive Result (A : Type) :=
| Return (a : A)
| Raise (e : Exn).
Arguments Return {A} a.
Arguments Raise {A} e.

Definition is_return {A} (r : Result A) : bool :=
  match r with Return _ => true | Raise _ => false end.

(** ** Sessions *)

Definition generate_token (st : State) (token isic : string) : State :=
  set_tokens st (<[token := isic]> (tokens st)).

Definition verify_token (st : State) (token : string) : option string :=
  tokens st !! token.

(** Python's [if not isic]: [None] and the empty string are both falsy. *)
Definition falsy (o : option string) : bool :=
  match o with
  | None => true
  | Some s => String.eqb s ""
  end.

(** ** Booking *)

(** The slot filter of the conflict query:
    [date = ? AND kitchen_id = ? AND appliance_id = ? AND status = 'confirmed']. *)
Definition same_slot (date : string) (kitchenId : Z) (applianceId : string)
    (r : Reservation) : bool :=
  String.eqb (r_date r) date && Z.eqb (r_kitchen_id r) kitchenId
  && String.eqb (r_appliance_id r) applianceId
  && Status_eqb (r_status r) confirmed.

(** The three-clause time test of the conflict query. *)
Definition time_clash (startTime endTime : string) (r : Reservation) : bool :=
  (Text.le (r_start_time r) startTime && Text.lt startTime (r_end_time r))
  || (Text.lt (r_start_time r) endTime && Text.le endTime (r_end_time r))
  || (Text.le startTime (r_start_time r) && Text.le (r_end_time r) endTime).

(** The WHERE clause of the conflict query. *)
Definition clashes (date startTime endTime : string) (kitchenId : Z)
    (applianceId : string) (r : Reservation) : bool :=
  same_slot date kitchenId applianceId r && time_clash startTime endTime r.

(** [SELECT COUNT( * ) FROM reservations WHERE ...]. *)
Definition conflicts (st : State) (date startTime endTime : string)
    (kitchenId : Z) (applianceId : string) : nat :=
  length (List.filter (clashes date startTime endTime kitchenId applianceId)
                      (reservations st)).

(** [reservation_id = f"{isic}_{date}_{startTime}_{endTime}"]. *)
Definition reservation_id_of (isic date startTime endTime : string) : string :=
  isic +:+ "_" +:+ date +:+ "_" +:+ startTime +:+ "_" +:+ endTime.

Definition has_id (rid : string) (r : Reservation) : bool :=
  String.eqb (r_id r) rid.

(** [SELECT type FROM appliances WHERE id = ?], [fetchone()]. *)
Definition lookup_appliance (st : State) (applianceId : string) : option Appliance :=
  List.find (fun a => String.eqb (a_id a) applianceId) (appliances st).

(** The row written by the INSERT. *)
Definition new_row (isic date startTime endTime : string) (kitchenId : Z)
    (applianceId : string) (app : Appliance) : Reservation :=
  mkReservation (reservation_id_of isic date startTime endTime) isic date startTime
                endTime kitchenId applianceId (a_type app) confirmed.

(** [kitchen_id] is an INTEGER column; [kitchenId] is a Python [int] that
    nothing bounds before the INSERT. *)
Definition fits_INTEGER (z : Z) : bool :=
  (-2147483648 <=? z)%Z && (z <=? 2147483647)%Z.

(** The INSERT fails on a kitchen id that does not fit the column, and on
    a key that is already in the table, whatever the status of the row that
    holds it; no handler catches either exception. *)
Definition create_reservation (st : State)
    (date startTime endTime : string) (kitchenId : Z)
    (applianceId token : string) : Result string * State :=
  let isic := verify_token st token in
  if falsy isic then (Raise (HTTPException 401 "Invalid token"), st) else
  let isic := default "" isic in
  if (0 <? conflicts st date startTime endTime kitchenId applianceId)%nat
  then (Raise (HTTPException 400 "Time slot already reserved"), st) else
  let reservation_id := reservation_id_of isic date startTime endTime in
  match lookup_appliance st applianceId with
  | None => (Raise (HTTPException 400 "Invalid appliance"), st)
  | Some app =>
      if negb (fits_INTEGER kitchenId)
      then (Raise ConversionException, st)
      else if existsb (has_id reservation_id) (reservations st)
      then (Raise ConstraintException, st)
      else (Return reservation_id,
            set_reservations st
              (reservations st
                 ++ [new_row isic date startTime endTime kitchenId applianceId app])%list)
  end.

(** ** Cancellation *)

Definition cancel_row (reservation_id : string) (r : Reservation) : Reservation :=
  if has_id reservation_id r
  then mkReservation (r_id r) (r_isic_number r) (r_date r) (r_start_time r)
                     (r_end_time r) (r_kitchen_id r) (r_appliance_id r)
                     (r_appliance_type r) cancelled
  else r.

Definition cancel_reservation (st : State) (reservation_id token : string)
    : Result string * State :=
  let isic := verify_token st token in
  if falsy isic then (Raise (HTTPException 401 "Invalid token"), st) else
  let isic := default "" isic in
  let owner := List.find (has_id reservation_id) (reservations st) in
  match owner with
  | Some row =>
      if negb (String.eqb (r_isic_number row) isic)
      then (Raise (HTTPException 403 "Not your reservation"), st)
      else (Return "Reservation cancelled successfully",
            set_reservations st (map (cancel_row reservation_id) (reservations st)))
  | None => (Raise (HTTPException 403 "Not your reservation"), st)
  end.

(** ** Availability *)

Record Slot := mkSlot {
  slot_id : string;
  slot_startTime : string;
  slot_endTime : string;
  slot_userId : Z
}.

Record ApplianceEntry := mkApplianceEntry {
  applianceId : string;
  applianceType : string;
  applianceName : string;
  entry_reservations : list Slot
}.

Record Availability := mkAvailability {
  av_date : string;
  av_kitchenId : Z;
  operatingHours : string * string;
  minDuration : Z;
  maxDuration : Z;
  av_appliances : list ApplianceEntry;
  totalReservations : nat
}.

(** The reservation query: rows [(appliance_id, start_time, end_time)] with
    [date = ? AND kitchen_id = ? AND status = 'confirmed'], in table order. *)
Definition day_rows (st : State) (date : string) (kitchen : Z)
    : list (string * string * string) :=
  map (fun r => (r_appliance_id r, r_start_time r, r_end_time r))
      (List.filter (fun r => String.eqb (r_date r) date
                             && Z.eqb (r_kitchen_id r) kitchen
                             && Status_eqb (r_status r) confirmed)
                   (reservations st)).

(** The grouping loop: [appliance_reservations[app_id].append({...})]. *)
Definition group_step (acc : gmap string (list Slot)) (res : string * string * string)
    : gmap string (list Slot) :=
  let '(app_id, start_time, end_time) := res in
  <[app_id := (default [] (acc !! app_id) ++ [mkSlot app_id start_time end_time 1])%list]> acc.

Definition group_rows (rows : list (string * string * string)) : gmap string (list Slot) :=
  fold_left group_step rows ∅.

Definition get_availability (st : State) (date : string) (kitchen : Z) : Availability :=
  let apps := List.filter (fun a => Z.eqb (a_kitchen_id a) kitchen) (appliances st) in
  let rows := day_rows st date kitchen in
  let appliance_reservations := group_rows rows in
  mkAvailability date kitchen ("06:00", "23:00") 5 120
    (map (fun a => mkApplianceEntry (a_id a) (a_type a) (a_name a)
                     (default [] (appliance_reservations !! a_id a)))
         apps)
    (length rows).

(** ** Request sequences *)

(** [GenerateToken] is a session issued by [login] or [verify_face]; the
    value drawn by [secrets.token_urlsafe] is an input of the step. *)
Inductive Request :=
| GenerateToken (token isic : string)
| Reserve (date startTime endTime : string) (kitchenId : Z) (applianceId token : string)
| Cancel (reservation_id token : string).

Definition step (st : State) (rq : Request) : State :=
  match rq with
  | GenerateToken token isic => generate_token st token isic
  | Reserve date startTime endTime kitchenId applianceId token =>
      snd (create_reservation st date startTime endTime kitchenId applianceId token)
  | Cancel reservation_id token =>
      snd (cancel_reservation st reservation_id token)
  end.

Definition run (st : State) (rqs : list Request) : State := fold_left step rqs st.

(** ** Interval vocabulary of the booking rules *)

(** [[s1,e1)] and [[s2,e2)] overlap iff [s1 < e2 AND s2 < e1]. *)
Definition overlap (s1 e1 s2 e2 : string) : bool :=
  Text.lt s1 e2 && Text.lt s2 e1.

Definition well_formed (r : Reservation) : bool :=
  Text.lt (r_start_time r) (r_end_time r).

(** ** Wall-clock time *)

(** The fields of [datetime.now()] that [strftime] reads, and the seconds
    that it drops. *)
Record datetime := mkDatetime {
  year : nat; month : nat; day : nat;
  hour : nat; minute : nat; second : nat
}.

Definition two_digits (n : nat) : string :=
  decimal_digit (n / 10 mod 10) +:+ decimal_digit (n mod 10).

Definition four_digits (n : nat) : string :=
  two_digits (n / 100) +:+ two_digits (n mod 100).

(** [now.strftime("%Y-%m-%d")] and [now.strftime("%H:%M")]. *)
Definition strftime_Ymd (now : datetime) : string :=
  four_digits (year now) +:+ "-" +:+ two_digits (month now) +:+ "-" +:+ two_digits (day now).

Definition strftime_HM (now : datetime) : string :=
  two_digits (hour now) +:+ ":" +:+ two_digits (minute now).

(** The binary64 value of the literal [0.6]. *)
Definition threshold_default : float := 0x1.3333333333333p-1%float.

(** ** Face matching and the door check

    [np.dot] and [np.linalg.norm] are numpy routines; their summation order
    is the library's business, so the handlers are modelled over any pair of
    such routines on binary64 vectors.  All embeddings come from one network
    and have one length, so the shape error of [np.dot] does not arise. *)

Section FaceMatching.

Variable np_dot : list float -> list float -> float.
Variable np_linalg_norm : list float -> float.

Definition cosine_similarity (embedding1 embedding2 : list float) : float :=
  let dot_product := np_dot embedding1 embedding2 in
  let norm1 := np_linalg_norm embedding1 in
  let norm2 := np_linalg_norm embedding2 in
  if (norm1 =? 0)%float || (norm2 =? 0)%float then 0%float
  else (dot_product / (norm1 * norm2))%float.

(** [SELECT isic_number, face_embedding FROM users WHERE face_embedding IS NOT NULL]. *)
Definition gallery (st : State) : list (string * list float) :=
  omap (fun u => match u_face_embedding u with
                 | Some e => Some (u_isic_number u, e)
                 | None => None
                 end) (users st).

(** One turn of the scan loop on [(best_match, best_similarity)]. *)
Definition scan_step (embedding : list float) (best : option string * float)
    (row : string * list float) : option string * float :=
  let similarity := cosine_similarity embedding (snd row) in
  if (snd best <? similarity)%float then (Some (fst row), similarity) else best.

Definition scan (embedding : list float) (rows : list (string * list float))
    (best : option string * float) : option string * float :=
  fold_left (scan_step embedding) rows best.

Definition find_matching_user (st : State) (embedding : list float) (threshold : float)
    : option string :=
  let best := scan embedding (gallery st) (None, 0%float) in
  if (threshold <=? snd best)%float then fst best else None.

(** The query of [esp_check]. *)
Definition active_now (isic today hm : string) (r : Reservation) : bool :=
  String.eqb (r_isic_number r) isic && String.eqb (r_date r) today
  && Text.le (r_start_time r) hm && Text.le hm (r_end_time r)
  && Status_eqb (r_status r) confirmed.

(** [esp_check] after the embedding has been extracted from the upload;
    the result is the ["authorized"] field. *)
Definition esp_check (st : State) (embedding : list float) (now : datetime) : bool :=
  let matched_isic := find_matching_user st embedding threshold_default in
  if falsy matched_isic then false else
  let isic := default "" matched_isic in
  (0 <? length (List.filter (active_now isic (strftime_Ymd now) (strftime_HM now))
                            (reservations st)))%nat.

(** What the scan holds after reading [seen]: nothing, or an identity of
    [seen] whose vector has a strictly positive similarity. *)
Definition backed (e : list float) (seen : list (string * list float))
    (b : option string * float) : Prop :=
  b = (None, 0%float)
  \/ exists isic v, In (isic, v) seen /\ b = (Some isic, cosine_similarity e v)
                    /\ (0 <? cosine_similarity e v)%float = true.

End FaceMatching.

(** Sequential versions of the two numpy routines, for running examples. *)
Fixpoint dot_seq (a b : list float) : float :=
  match a, b with
  | x :: a', y :: b' => (x * y + dot_seq a' b')%float
  | _, _ => 0%float
  end.

Definition norm_seq (a : list float) : float := PrimFloat.sqrt (dot_seq a a).

(** ** Vocabulary of the advertised limits

    Minutes since midnight of an ["HH:MM"] text, used only to state what the
    availability response advertises; no handler parses a time. *)
Definition digit_value (c : ascii) : option nat :=
  let n := nat_of_ascii c in
  if (48 <=? n)%nat && (n <=? 57)%nat then Some (n - 48)%nat else None.

Definition minutes_of (hm : string) : option nat :=
  match hm with
  | String h1 (String h2 (String ":" (String m1 (String m2 EmptyString)))) =>
      match digit_value h1, digit_value h2, digit_value m1, digit_value m2 with
      | Some a, Some b, Some c, Some d => Some ((10 * a + b) * 60 + (10 * c + d))%nat
      | _, _, _, _ => None
      end
  | _ => None
  end.

Definition seconds_of_day (now : datetime) : Z :=
  ((Z.of_nat (hour now) * 60 + Z.of_nat (minute now)) * 60 + Z.of_nat (second now))%Z.

(** ** Vocabulary of the properties *)

(** A stored row that blocks the request [[s,e)] on slot [(d, k, a)]. *)
Definition overlapping (d s e : string) (k : Z) (a : string) (r : Reservation) : Prop :=
  r_date r = d /\ r_kitchen_id r = k /\ r_appliance_id r = a /\ r_status r = confirmed
  /\ overlap (r_start_time r) (r_end_time r) s e = true.

(** The request [[s,e)] lies outside the operating hours that the
    availability response [av] advertises, or is shorter than its
    [minDuration] or longer than its [maxDuration] (in minutes). *)
Definition breaks_advertised_limits (av : Availability) (s e : string) : Prop :=
  exists ms me opening closing : nat,
    minutes_of s = Some ms /\ minutes_of e = Some me
    /\ minutes_of (fst (operatingHours av)) = Some opening
    /\ minutes_of (snd (operatingHours av)) = Some closing
    /\ ((me <= opening)%nat \/ (closing <= ms)%nat
        \/ (Z.of_nat me - Z.of_nat ms < minDuration av)%Z
        \/ (maxDuration av < Z.of_nat me - Z.of_nat ms)%Z).

Definition slot_of_row (res : string * string * string) : Slot :=
  mkSlot res.1.1 res.1.2 res.2 1.

Definition entry_of (st : State) (d : string) (k : Z) (a : Appliance) : ApplianceEntry :=
  mkApplianceEntry (a_id a) (a_type a) (a_name a)
    (map (fun r => mkSlot (r_appliance_id r) (r_start_time r) (r_end_time r) 1)
         (List.filter (same_slot d k (a_id a)) (reservations st))).

Definition with_second (now : datetime) (s : nat) : datetime :=
  mkDatetime (year now) (month now) (day now) (hour now) (minute now) s.

(** No two confirmed rows of one (kitchen id, appliance id, date) overlap. *)
Definition no_double_booking (rs : list Reservation) : Prop :=
  forall r1 r2,
    In r1 rs -> In r2 rs -> r_id r1 <> r_id r2 ->
    r_status r1 = confirmed -> r_status r2 = confirmed ->
    r_kitchen_id r1 = r_kitchen_id r2 ->
    r_appliance_id r1 = r_appliance_id r2 ->
    r_date r1 = r_date r2 ->
    overlap (r_start_time r1) (r_end_time r1) (r_start_time r2) (r_end_time r2) = false.

(** Every stored reservation names an appliance of the catalogue. *)
Definition appliances_known (st : State) : Prop :=
  forall r, In r (reservations st) -> lookup_appliance st (r_appliance_id r) <> None.

(** ** Sample data *)

(** Small examples. *)
Definition t0 : gmap string string := {["tokA" := "S1234567890"; "tokB" := "S0987654321"]}.

Definition alice : User := mkUser "S1234567890" "User 7890" (Some [1%float; 0%float]).
Definition bob : User := mkUser "S0987654321" "User 4321" (Some [0%float; 1%float]).

Definition may1 : string := "2024-05-01".
Definition oven1 : Appliance := mkAppliance "k1-oven3" 1 "oven" "Oven".
Definition rowA : Reservation := new_row "S1234567890" may1 "10:00" "10:30" 1 "k1-oven3" oven1.
Definition rowB : Reservation := new_row "S0987654321" may1 "10:30" "11:00" 1 "k1-oven3" oven1.
Definition rowA2 : Reservation := new_row "S1234567890" may1 "10:15" "10:45" 2 "k1-oven3" oven1.

(** A booking, an overlapping attempt and a touching booking. *)
Definition morning_run : list Request :=
  [ Reserve may1 "10:00" "10:30" 1 "k1-oven3" "tokA";
    Reserve may1 "10:15" "10:45" 1 "k1-oven3" "tokB";
    Reserve may1 "10:30" "11:00" 1 "k1-oven3" "tokB" ].

(** The same oven booked twice, the second time under another kitchen id. *)
Definition two_kitchen_ids_run : list Request :=
  [ Reserve may1 "10:00" "10:30" 1 "k1-oven3" "tokA";
    Reserve may1 "10:15" "10:45" 2 "k1-oven3" "tokA" ].

Definition booked_once : State :=
  run (fresh t0) [Reserve may1 "10:00" "10:30" 1 "k1-oven3" "tokA"].

Definition set_users (st : State) (us : list User) : State :=
  mkState (tokens st) us (appliances st) (reservations st).

Definition booked_under_kitchen2 : State :=
  run (fresh t0) [Reserve may1 "10:00" "10:30" 2 "k1-oven3" "tokA"].

(** Bob's row precedes Alice's in the users table; Alice holds the oven
    from 10:00 to 10:30. *)
Definition door_state : State := set_users booked_once [bob; alice].




(** * Properties *)

(** ** Order of TEXT values *)

Module TextFacts.

Lemma lt_compare a b : Text.lt a b = true <-> String.compare a b = Lt.
Proof. unfold Text.lt, String.ltb. destruct (String.compare a b); intuition congruence. Qed.

Lemma le_compare a b : Text.le a b = true <-> String.compare a b <> Gt.
Proof. unfold Text.le, String.leb. destruct (String.compare a b); intuition congruence. Qed.

Lemma lt_irrefl a : Text.lt a a = false.
Proof.
  destruct (Text.lt a a) eqn:E; [|reflexivity].
  apply lt_compare in E. pose proof (String.compare_antisym a a) as A.
  rewrite E in A. discriminate A.
Qed.

Lemma lt_trans a b c : Text.lt a b = true -> Text.lt b c = true -> Text.lt a c = true.
Proof.
  rewrite !lt_compare. intros H1 H2.
  apply String_as_OT.cmp_lt. apply String_as_OT.cmp_lt in H1, H2.
  eapply String_as_OT.lt_trans; eassumption.
Qed.

Lemma le_lt_or_eq a b : Text.le a b = true <-> Text.lt a b = true \/ a = b.
Proof.
  rewrite le_compare, lt_compare. split.
  - intros H. destruct (String.compare a b) eqn:E.
    + right. now apply String.compare_eq_iff.
    + now left.
    + congruence.
  - intros [H | ->].
    + congruence.
    + pose proof (String.compare_antisym b b) as A.
      intros G. rewrite G in A. discriminate A.
Qed.

Lemma lt_le_false a b : Text.lt a b = true -> Text.le b a = false.
Proof.
  intros H. destruct (Text.le b a) eqn:E; [|reflexivity].
  apply le_lt_or_eq in E. destruct E as [E | ->].
  - pose proof (lt_trans _ _ _ H E) as F. now rewrite lt_irrefl in F.
  - now rewrite lt_irrefl in H.
Qed.

Lemma not_lt_le a b : Text.lt a b = false -> Text.le b a = true.
Proof.
  intros H. apply le_compare. rewrite String.compare_antisym.
  unfold Text.lt, String.ltb in H.
  destruct (String.compare a b); simpl; congruence.
Qed.

Lemma le_lt_trans a b c : Text.le a b = true -> Text.lt b c = true -> Text.lt a c = true.
Proof.
  intros H1 H2. apply le_lt_or_eq in H1. destruct H1 as [H1 | ->]; [|assumption].
  eapply lt_trans; eassumption.
Qed.

Lemma lt_le_trans a b c : Text.lt a b = true -> Text.le b c = true -> Text.lt a c = true.
Proof.
  intros H1 H2. apply le_lt_or_eq in H2. destruct H2 as [H2 | <-]; [|assumption].
  eapply lt_trans; eassumption.
Qed.

Lemma lt_le a b : Text.lt a b = true -> Text.le a b = true.
Proof. intros H. apply le_lt_or_eq. now left. Qed.

End TextFacts.

(** ** Small runs *)

Example fresh_appliances :
  map a_id (List.filter (fun a => Z.eqb (a_kitchen_id a) 1) (appliances (fresh t0)))
  = ["k1-microwave1"; "k1-microwave2"; "k1-oven3"; "k1-stove_left4"; "k1-stove_right5"].
Proof. reflexivity. Qed.

Example book_then_overlap_then_touch :
  let '(r1, st1) := create_reservation (fresh t0) "2024-05-01" "10:00" "10:30" 1 "k1-oven3" "tokA" in
  let '(r2, st2) := create_reservation st1 "2024-05-01" "10:15" "10:45" 1 "k1-oven3" "tokB" in
  let '(r3, st3) := create_reservation st2 "2024-05-01" "10:30" "11:00" 1 "k1-oven3" "tokB" in
  r1 = Return "S1234567890_2024-05-01_10:00_10:30"
  /\ r2 = Raise (HTTPException 400 "Time slot already reserved")
  /\ r3 = Return "S0987654321_2024-05-01_10:30_11:00"
  /\ length (reservations st3) = 2%nat.
Proof. vm_compute. repeat split; reflexivity. Qed.

Example cosine_examples :
  cosine_similarity dot_seq norm_seq [1%float; 0%float] [1%float; 0%float] = 1%float
  /\ cosine_similarity dot_seq norm_seq [1%float; 0%float] [0%float; 1%float] = 0%float
  /\ cosine_similarity dot_seq norm_seq [0%float; 0%float] [0%float; 1%float] = 0%float
  /\ two_digits 7 = "07" /\ four_digits 2024 = "2024"
  /\ minutes_of "10:30" = Some 630%nat.
Proof. vm_compute. repeat split; reflexivity. Qed.

(** ** List and session helpers *)

Lemma count_pos_existsb {A} (f : A -> bool) (l : list A) :
  (0 <? length (List.filter f l))%nat = existsb f l.
Proof.
  induction l as [|x l IH]; simpl; [reflexivity|].
  destruct (f x); simpl; [reflexivity | exact IH].
Qed.

Lemma existsb_false_forall {A} (f : A -> bool) (l : list A) :
  existsb f l = false <-> forall x, In x l -> f x = false.
Proof.
  split.
  - intros H x Hx. destruct (f x) eqn:E; [|reflexivity].
    assert (existsb f l = true) by (apply existsb_exists; eauto). congruence.
  - intros H. destruct (existsb f l) eqn:E; [|reflexivity].
    apply existsb_exists in E. destruct E as (x & Hx & Hf).
    rewrite (H x Hx) in Hf. discriminate.
Qed.

Lemma falsy_some isic : falsy (Some isic) = false <-> isic <> "".
Proof. simpl. apply String.eqb_neq. Qed.

Lemma same_slot_spec d k a r :
  same_slot d k a r = true <->
  r_date r = d /\ r_kitchen_id r = k /\ r_appliance_id r = a /\ r_status r = confirmed.
Proof.
  unfold same_slot. rewrite !andb_true_iff, !String.eqb_eq, Z.eqb_eq.
  destruct (r_status r); simpl; intuition congruence.
Qed.

(** ** The conflict query against the overlap rule *)

Lemma overlap_time_clash s e r :
  overlap (r_start_time r) (r_end_time r) s e = true -> time_clash s e r = true.
Proof.
  unfold overlap, time_clash. rewrite andb_true_iff. intros [H1 H2].
  destruct (Text.le (r_start_time r) s) eqn:A; simpl.
  - rewrite H2. reflexivity.
  - rewrite H1. simpl.
    assert (Hs : Text.le s (r_start_time r) = true).
    { destruct (Text.lt s (r_start_time r)) eqn:B.
      - now apply TextFacts.lt_le.
      - apply TextFacts.not_lt_le in B. congruence. }
    rewrite Hs. simpl.
    destruct (Text.le e (r_end_time r)) eqn:C; simpl; [reflexivity|].
    destruct (Text.le (r_end_time r) e) eqn:D; [reflexivity|].
    destruct (Text.lt e (r_end_time r)) eqn:F.
    + apply TextFacts.lt_le in F. congruence.
    + apply TextFacts.not_lt_le in F. congruence.
Qed.

Lemma time_clash_overlap s e r :
  well_formed r = true -> Text.lt s e = true ->
  time_clash s e r = true -> overlap (r_start_time r) (r_end_time r) s e = true.
Proof.
  unfold well_formed, overlap, time_clash. intros Hr Hse H.
  rewrite !orb_true_iff, !andb_true_iff in H. apply andb_true_iff.
  destruct H as [[[A B] | [A B]] | [A B]].
  - split; [eapply TextFacts.le_lt_trans; eassumption | assumption].
  - split; [assumption | eapply TextFacts.lt_le_trans; eassumption].
  - split.
    + eapply TextFacts.lt_le_trans; [exact Hr | exact B].
    + eapply TextFacts.le_lt_trans; [exact A | exact Hr].
Qed.

Lemma overlap_sym s1 e1 s2 e2 : overlap s1 e1 s2 e2 = overlap s2 e2 s1 e1.
Proof. unfold overlap. apply andb_comm. Qed.

(** ** Shape of the booking handler *)

Lemma create_reservation_accepts st d s e k a tok isic app :
  verify_token st tok = Some isic -> isic <> "" ->
  existsb (clashes d s e k a) (reservations st) = false ->
  lookup_appliance st a = Some app ->
  fits_INTEGER k = true ->
  existsb (has_id (reservation_id_of isic d s e)) (reservations st) = false ->
  create_reservation st d s e k a tok
  = (Return (reservation_id_of isic d s e),
     set_reservations st (reservations st ++ [new_row isic d s e k a app])%list).
Proof.
  intros Htok Hne Hc Happ Hk Hid. unfold create_reservation, conflicts.
  rewrite Htok. apply falsy_some in Hne. rewrite Hne.
  rewrite count_pos_existsb, Hc, Happ, Hk. simpl. rewrite Hid.
  reflexivity.
Qed.

Lemma create_reservation_inv st d s e k a tok res st' :
  create_reservation st d s e k a tok = (res, st') ->
  (st' = st /\
   ((falsy (verify_token st tok) = true
     /\ res = Raise (HTTPException 401 "Invalid token"))
    \/ (falsy (verify_token st tok) = false
        /\ existsb (clashes d s e k a) (reservations st) = true
        /\ res = Raise (HTTPException 400 "Time slot already reserved"))
    \/ (falsy (verify_token st tok) = false
        /\ existsb (clashes d s e k a) (reservations st) = false
        /\ lookup_appliance st a = None
        /\ res = Raise (HTTPException 400 "Invalid appliance"))
    \/ (falsy (verify_token st tok) = false
        /\ existsb (clashes d s e k a) (reservations st) = false
        /\ lookup_appliance st a <> None
        /\ fits_INTEGER k = false
        /\ res = Raise ConversionException)
    \/ (exists isic app,
          verify_token st tok = Some isic /\ isic <> ""
          /\ existsb (clashes d s e k a) (reservations st) = false
          /\ lookup_appliance st a = Some app
          /\ existsb (has_id (reservation_id_of isic d s e)) (reservations st) = true
          /\ res = Raise ConstraintException)))
  \/ (exists isic app,
        verify_token st tok = Some isic /\ isic <> ""
        /\ existsb (clashes d s e k a) (reservations st) = false
        /\ lookup_appliance st a = Some app
        /\ existsb (has_id (reservation_id_of isic d s e)) (reservations st) = false
        /\ res = Return (reservation_id_of isic d s e)
        /\ st' = set_reservations st
                   (reservations st ++ [new_row isic d s e k a app])%list).
Proof.
  unfold create_reservation, conflicts. rewrite count_pos_existsb.
  destruct (falsy (verify_token st tok)) eqn:Hf.
  { intros [= <- <-]. left. split; [reflexivity|]. left. auto. }
  destruct (existsb (clashes d s e k a) (reservations st)) eqn:Hc.
  { intros [= <- <-]. left. split; [reflexivity|]. right. left. auto. }
  destruct (lookup_appliance st a) as [app|] eqn:Happ.
  2:{ intros [= <- <-]. left. split; [reflexivity|]. right. right. left. auto. }
  destruct (fits_INTEGER k) eqn:Hk; simpl.
  2:{ intros [= <- <-]. left. split; [reflexivity|]. right. right. right. left.
      repeat split; congruence. }
  destruct (verify_token st tok) as [isic|] eqn:Htok; [|discriminate Hf].
  apply falsy_some in Hf. simpl default.
  destruct (existsb (has_id (reservation_id_of isic d s e)) (reservations st)) eqn:Hid.
  - intros [= <- <-]. left. split; [reflexivity|]. right. right. right. right.
    exists isic, app. auto 10.
  - intros [= <- <-]. right. exists isic, app. auto 10.
Qed.

(** A booking is stored only under a kitchen id that fits its column. *)
Lemma create_reservation_return_fits st d s e k a tok :
  is_return (fst (create_reservation st d s e k a tok)) = true -> fits_INTEGER k = true.
Proof.
  unfold create_reservation.
  destruct (falsy (verify_token st tok)); [discriminate|].
  destruct (0 <? conflicts st d s e k a)%nat; [discriminate|].
  destruct (lookup_appliance st a); [|discriminate].
  destruct (fits_INTEGER k); [reflexivity | discriminate].
Qed.

Lemma create_reservation_raise_unchanged st d s e k a tok :
  is_return (fst (create_reservation st d s e k a tok)) = false ->
  snd (create_reservation st d s e k a tok) = st.
Proof.
  destruct (create_reservation st d s e k a tok) as [res st'] eqn:E.
  apply create_reservation_inv in E. simpl.
  destruct E as [[-> _] | (isic & app & _ & _ & _ & _ & _ & -> & _)];
    [reflexivity | discriminate].
Qed.

(** ** Shape of the cancellation handler *)

Lemma cancel_reservation_inv st rid tok res st' :
  cancel_reservation st rid tok = (res, st') ->
  (st' = st /\ exists e, res = Raise e)
  \/ (exists isic row,
        verify_token st tok = Some isic /\ isic <> ""
        /\ List.find (has_id rid) (reservations st) = Some row
        /\ r_isic_number row = isic
        /\ res = Return "Reservation cancelled successfully"
        /\ st' = set_reservations st (map (cancel_row rid) (reservations st))).
Proof.
  unfold cancel_reservation.
  destruct (falsy (verify_token st tok)) eqn:Hf.
  { intros [= <- <-]. left. eauto. }
  destruct (verify_token st tok) as [isic|] eqn:Htok; [|discriminate Hf].
  apply falsy_some in Hf. simpl default.
  destruct (List.find (has_id rid) (reservations st)) as [row|] eqn:Hrow.
  2:{ intros [= <- <-]. left. eauto. }
  destruct (String.eqb (r_isic_number row) isic) eqn:Ho; simpl.
  - intros [= <- <-]. right. apply String.eqb_eq in Ho. exists isic, row. auto 10.
  - intros [= <- <-]. left. eauto.
Qed.

Lemma cancel_row_confirmed rid r :
  r_status (cancel_row rid r) = confirmed -> cancel_row rid r = r.
Proof.
  unfold cancel_row. destruct (has_id rid r); [discriminate | reflexivity].
Qed.

(** ** Invariants of request sequences *)

Lemma run_invariant (P : State -> Prop) :
  (forall st rq, P st -> P (step st rq)) ->
  forall rqs st, P st -> P (run st rqs).
Proof.
  intros Hstep rqs. unfold run.
  induction rqs as [|rq rqs IH]; simpl; intros st H; [exact H|].
  apply IH, Hstep, H.
Qed.

Lemma run_app st rqs1 rqs2 : run st (rqs1 ++ rqs2) = run (run st rqs1) rqs2.
Proof. unfold run. apply fold_left_app. Qed.

Lemma step_appliances st rq : appliances (step st rq) = appliances st.
Proof.
  destruct rq as [tok isic | d s e k a tok | rid tok]; simpl; [reflexivity | |].
  - destruct (create_reservation st d s e k a tok) as [res st'] eqn:E.
    apply create_reservation_inv in E. simpl.
    destruct E as [[-> _] | (isic & app & _ & _ & _ & _ & _ & _ & ->)]; reflexivity.
  - destruct (cancel_reservation st rid tok) as [res st'] eqn:E.
    apply cancel_reservation_inv in E. simpl.
    destruct E as [[-> _] | (isic & row & _ & _ & _ & _ & _ & ->)]; reflexivity.
Qed.

Lemma run_appliances st rqs : appliances (run st rqs) = appliances st.
Proof.
  apply (run_invariant (fun x => appliances x = appliances st)); [|reflexivity].
  intros x rq H. now rewrite step_appliances.
Qed.

Lemma no_clash_no_overlap d s e k a rs r :
  existsb (clashes d s e k a) rs = false ->
  In r rs -> r_status r = confirmed ->
  r_kitchen_id r = k -> r_appliance_id r = a -> r_date r = d ->
  overlap (r_start_time r) (r_end_time r) s e = false.
Proof.
  intros Hc Hin Hs Hk Ha Hd.
  pose proof (proj1 (existsb_false_forall _ _) Hc r Hin) as Hr.
  unfold clashes in Hr.
  rewrite (proj2 (same_slot_spec d k a r)) in Hr by auto. simpl in Hr.
  destruct (overlap (r_start_time r) (r_end_time r) s e) eqn:E; [|reflexivity].
  apply overlap_time_clash in E. congruence.
Qed.

Lemma no_double_booking_insert d s e k a isic app rs :
  no_double_booking rs ->
  existsb (clashes d s e k a) rs = false ->
  no_double_booking (rs ++ [new_row isic d s e k a app]).
Proof.
  intros IH Hc r1 r2 H1 H2 Hid S1 S2 Hk Ha Hd.
  apply in_app_or in H1. apply in_app_or in H2.
  destruct H1 as [H1 | [<- | []]], H2 as [H2 | [<- | []]].
  - now apply IH.
  - simpl in *. now apply (no_clash_no_overlap d s e k a rs).
  - simpl in *. rewrite overlap_sym.
    now apply (no_clash_no_overlap d s e k a rs).
  - congruence.
Qed.

Lemma no_double_booking_cancel rid rs :
  no_double_booking rs -> no_double_booking (map (cancel_row rid) rs).
Proof.
  intros IH r1 r2 H1 H2 Hid S1 S2 Hk Ha Hd.
  apply in_map_iff in H1. destruct H1 as (x1 & <- & H1).
  apply in_map_iff in H2. destruct H2 as (x2 & <- & H2).
  pose proof (cancel_row_confirmed _ _ S1) as E1.
  pose proof (cancel_row_confirmed _ _ S2) as E2.
  rewrite E1, E2 in *. now apply IH.
Qed.

Lemma step_no_double_booking st rq :
  no_double_booking (reservations st) ->
  no_double_booking (reservations (step st rq)).
Proof.
  intros IH. destruct rq as [tok isic | d s e k a tok | rid tok]; simpl; [exact IH | |].
  - destruct (create_reservation st d s e k a tok) as [res st'] eqn:E.
    apply create_reservation_inv in E. simpl.
    destruct E as [[-> _] | (isic & app & _ & _ & Hc & _ & _ & _ & ->)]; [exact IH|].
    simpl. now apply no_double_booking_insert.
  - destruct (cancel_reservation st rid tok) as [res st'] eqn:E.
    apply cancel_reservation_inv in E. simpl.
    destruct E as [[-> _] | (isic & row & _ & _ & _ & _ & _ & ->)]; [exact IH|].
    simpl. now apply no_double_booking_cancel.
Qed.

Lemma step_appliances_known st rq : appliances_known st -> appliances_known (step st rq).
Proof.
  intros IH. destruct rq as [tok isic | d s e k a tok | rid tok]; simpl; [exact IH | |].
  - destruct (create_reservation st d s e k a tok) as [res st'] eqn:E.
    apply create_reservation_inv in E. simpl.
    destruct E as [[-> _] | (isic & app & _ & _ & _ & Ha & _ & _ & ->)]; [exact IH|].
    intros r Hr. simpl in Hr. apply in_app_or in Hr.
    destruct Hr as [Hr | [<- | []]].
    + apply (IH r Hr).
    + unfold lookup_appliance in *. simpl. congruence.
  - destruct (cancel_reservation st rid tok) as [res st'] eqn:E.
    apply cancel_reservation_inv in E. simpl.
    destruct E as [[-> _] | (isic & row & _ & _ & _ & _ & _ & ->)]; [exact IH|].
    intros r Hr. simpl in Hr. apply in_map_iff in Hr. destruct Hr as (x & <- & Hx).
    specialize (IH x Hx). unfold lookup_appliance in *. simpl.
    unfold cancel_row. destruct (has_id rid x); exact IH.
Qed.

(** ** Double booking (C1) *)

(** C1, amended: in every state reached from an empty reservation table by
    any sequence of sessions, bookings and cancellations, no two confirmed
    reservations with the same kitchen id, the same appliance id and the
    same date have overlapping [start,end) intervals. *)
Theorem confirmed_same_slot_never_overlap st0 rqs r1 r2 :
  reservations st0 = [] ->
  In r1 (reservations (run st0 rqs)) ->
  In r2 (reservations (run st0 rqs)) ->
  r_id r1 <> r_id r2 ->
  r_status r1 = confirmed -> r_status r2 = confirmed ->
  r_kitchen_id r1 = r_kitchen_id r2 ->
  r_appliance_id r1 = r_appliance_id r2 ->
  r_date r1 = r_date r2 ->
  overlap (r_start_time r1) (r_end_time r1) (r_start_time r2) (r_end_time r2) = false.
Proof.
  intros H0.
  assert (Hinv : no_double_booking (reservations (run st0 rqs))).
  { apply (run_invariant (fun st => no_double_booking (reservations st))).
    - intros st rq. apply step_no_double_booking.
    - rewrite H0. intros x y [].
  }
  apply Hinv.
Qed.

Lemma confirmed_same_slot_never_overlap_witness :
  In rowA (reservations (run (fresh t0) morning_run))
  /\ In rowB (reservations (run (fresh t0) morning_run))
  /\ overlap (r_start_time rowA) (r_end_time rowA)
             (r_start_time rowB) (r_end_time rowB) = false.
Proof.
  assert (HA : In rowA (reservations (run (fresh t0) morning_run)))
    by (vm_compute; left; reflexivity).
  assert (HB : In rowB (reservations (run (fresh t0) morning_run)))
    by (vm_compute; right; left; reflexivity).
  split; [exact HA | split; [exact HB|]].
  apply (confirmed_same_slot_never_overlap (fresh t0) morning_run rowA rowB).
  - vm_compute. reflexivity.
  - exact HA.
  - exact HB.
  - vm_compute. discriminate.
  - vm_compute. reflexivity.
  - vm_compute. reflexivity.
  - vm_compute. reflexivity.
  - vm_compute. reflexivity.
  - vm_compute. reflexivity.
Defined.

(** C1 as stated fails: the conflict query also filters on the kitchen id
    of the request, and nothing ties an appliance to its kitchen, so one
    oven holds two overlapping confirmed reservations on one date. *)
Lemma double_booking_under_two_kitchen_ids :
  In rowA (reservations (run (fresh t0) two_kitchen_ids_run))
  /\ In rowA2 (reservations (run (fresh t0) two_kitchen_ids_run))
  /\ r_status rowA = confirmed /\ r_status rowA2 = confirmed
  /\ r_appliance_id rowA = r_appliance_id rowA2
  /\ r_date rowA = r_date rowA2
  /\ r_id rowA <> r_id rowA2
  /\ overlap (r_start_time rowA) (r_end_time rowA)
             (r_start_time rowA2) (r_end_time rowA2) = true.
Proof.
  split; [vm_compute; left; reflexivity|].
  split; [vm_compute; right; left; reflexivity|].
  vm_compute. repeat split; discriminate.
Qed.

(** ** Re-booking a cancelled slot (C2) *)

(** C2 at a concrete input: the owner books the oven, cancels, and books the
    very same slot again; the INSERT meets the cancelled row's key and the
    request ends in the database's constraint exception, with nothing
    persisted. *)
Theorem rebook_after_cancel_raises :
  let st1 := booked_once in
  let '(r2, st2) := cancel_reservation st1 "S1234567890_2024-05-01_10:00_10:30" "tokA" in
  let '(r3, st3) := create_reservation st2 may1 "10:00" "10:30" 1 "k1-oven3" "tokA" in
  map r_id (reservations st1) = ["S1234567890_2024-05-01_10:00_10:30"]
  /\ r2 = Return "Reservation cancelled successfully"
  /\ map r_status (reservations st2) = [cancelled]
  /\ conflicts st2 may1 "10:00" "10:30" 1 "k1-oven3" = 0%nat
  /\ r3 = Raise ConstraintException
  /\ st3 = st2.
Proof. vm_compute. repeat split; reflexivity. Qed.

(** The same for every state: once the owner has cancelled the reservation
    that a booking created, the same booking by the same session raises the
    constraint exception. *)
Lemma rebook_by_owner_always_raises st d s e k a tok rid st1 msg st2 :
  create_reservation st d s e k a tok = (Return rid, st1) ->
  cancel_reservation st1 rid tok = (Return msg, st2) ->
  create_reservation st2 d s e k a tok = (Raise ConstraintException, st2).
Proof.
  intros E1 E2.
  assert (Hk : fits_INTEGER k = true)
    by (apply (create_reservation_return_fits st d s e k a tok); now rewrite E1).
  apply create_reservation_inv in E1.
  destruct E1 as [[_ [(_ & [=]) | [(_ & _ & [=]) | [(_ & _ & _ & [=]) |
                    [(_ & _ & _ & _ & [=]) | (? & ? & _ & _ & _ & _ & _ & [=])]]]]] |
                  (isic & app & Htok & Hne & Hc & Happ & Hid & [= ->] & ->)].
  apply cancel_reservation_inv in E2.
  destruct E2 as [[_ [x [=]]] | (isic' & row & Htok' & _ & _ & _ & _ & ->)].
  unfold create_reservation, conflicts. rewrite count_pos_existsb.
  unfold verify_token in *. simpl tokens in *. rewrite Htok.
  apply falsy_some in Hne. rewrite Hne. simpl default.
  simpl reservations.
  assert (Hc' : existsb (clashes d s e k a)
                  (map (cancel_row (reservation_id_of isic d s e))
                       (reservations st ++ [new_row isic d s e k a app])) = false).
  { apply existsb_false_forall. intros r Hr.
    apply in_map_iff in Hr. destruct Hr as (x & <- & Hx).
    unfold clashes.
    destruct (same_slot d k a (cancel_row (reservation_id_of isic d s e) x)) eqn:Hs;
      [|reflexivity].
    pose proof (proj1 (same_slot_spec _ _ _ _) Hs) as (_ & _ & _ & Hst).
    pose proof (cancel_row_confirmed _ _ Hst) as Ex. rewrite Ex in *.
    apply in_app_or in Hx. destruct Hx as [Hx | [<- | []]].
    - pose proof (proj1 (existsb_false_forall _ _) Hc x Hx) as Hx'.
      unfold clashes in Hx'. rewrite Hs in Hx'. exact Hx'.
    - unfold cancel_row, has_id, new_row in Ex. simpl in Ex.
      rewrite String.eqb_refl in Ex. discriminate. }
  rewrite Hc'.
  unfold lookup_appliance in *. simpl appliances. rewrite Happ, Hk. simpl negb.
  assert (Hid' : existsb (has_id (reservation_id_of isic d s e))
                   (map (cancel_row (reservation_id_of isic d s e))
                        (reservations st ++ [new_row isic d s e k a app])) = true).
  { apply existsb_exists.
    exists (cancel_row (reservation_id_of isic d s e) (new_row isic d s e k a app)).
    split.
    - apply in_map, in_or_app. right. left. reflexivity.
    - unfold cancel_row, has_id, new_row. simpl. rewrite String.eqb_refl. simpl.
      apply String.eqb_refl. }
  rewrite Hid'. reflexivity.
Qed.

(** ** Conflict detection (C3) *)

Lemma clash_iff_overlapping st d s e k a :
  Text.lt s e = true ->
  (forall r, In r (reservations st) -> same_slot d k a r = true -> well_formed r = true) ->
  existsb (clashes d s e k a) (reservations st) = true
  <-> exists r, In r (reservations st) /\ overlapping d s e k a r.
Proof.
  intros Hse Hwf. rewrite existsb_exists. split.
  - intros (r & Hr & Hc). exists r. split; [exact Hr|].
    unfold clashes in Hc. apply andb_true_iff in Hc. destruct Hc as [Hs Ht].
    pose proof (proj1 (same_slot_spec _ _ _ _) Hs) as (? & ? & ? & ?).
    unfold overlapping. repeat split; try assumption.
    apply time_clash_overlap; auto.
  - intros (r & Hr & Hd & Hk & Ha & Hst & Ho). exists r. split; [exact Hr|].
    unfold clashes. apply andb_true_iff. split.
    + apply same_slot_spec. auto.
    + now apply overlap_time_clash.
Qed.

(** C3, amended: for every authenticated caller, every existing appliance
    and every kitchen id that fits the INTEGER column, when the request has
    start < end, the confirmed reservations stored for its kitchen id,
    appliance and date have start < end, and no cancelled reservation holds
    the id derived from (identity, date, start, end) -- times compared as
    text throughout: book answers "Time slot already reserved" iff the
    request [s2,e2) overlaps some confirmed reservation [s1,e1) of the same
    kitchen id, appliance and date under s1 < e2 AND s2 < e1; book rejects
    iff it overlaps such a reservation or a confirmed reservation holds the
    derived id; an accepted request is appended to the table as a confirmed
    row; and a reservation that merely touches the request (its end equal
    to the new start, or its start equal to the new end) does not overlap
    it. *)
Theorem book_rejects_iff_overlap_or_confirmed_id st d s e k a tok isic app :
  verify_token st tok = Some isic -> isic <> "" ->
  lookup_appliance st a = Some app ->
  fits_INTEGER k = true ->
  Text.lt s e = true ->
  (forall r, In r (reservations st) -> same_slot d k a r = true -> well_formed r = true) ->
  (forall r, In r (reservations st) -> r_id r = reservation_id_of isic d s e ->
             r_status r = confirmed) ->
  (fst (create_reservation st d s e k a tok)
     = Raise (HTTPException 400 "Time slot already reserved")
   <-> exists r, In r (reservations st) /\ overlapping d s e k a r)
  /\ (is_return (fst (create_reservation st d s e k a tok)) = false
      <-> (exists r, In r (reservations st) /\ overlapping d s e k a r)
          \/ (exists r, In r (reservations st)
                        /\ r_id r = reservation_id_of isic d s e
                        /\ r_status r = confirmed))
  /\ (is_return (fst (create_reservation st d s e k a tok)) = true ->
      reservations (snd (create_reservation st d s e k a tok))
      = (reservations st ++ [new_row isic d s e k a app])%list)
  /\ (forall r, r_end_time r = s \/ r_start_time r = e ->
                overlap (r_start_time r) (r_end_time r) s e = false).
Proof.
  intros Htok Hne Happ Hk Hse Hwf Hheld.
  pose proof (clash_iff_overlapping st d s e k a Hse Hwf) as Hiff.
  assert (Hids : existsb (has_id (reservation_id_of isic d s e)) (reservations st) = true
                 <-> exists r, In r (reservations st)
                               /\ r_id r = reservation_id_of isic d s e
                               /\ r_status r = confirmed).
  { rewrite existsb_exists. unfold has_id. split.
    - intros (r & Hr & Hid). apply String.eqb_eq in Hid. exists r. auto.
    - intros (r & Hr & Hid & _). exists r. split; [exact Hr|]. now apply String.eqb_eq. }
  assert (Happ' : lookup_appliance st a <> None) by congruence.
  destruct (create_reservation st d s e k a tok) as [res st'] eqn:E.
  apply create_reservation_inv in E. simpl fst. simpl snd.
  assert (Hf : falsy (verify_token st tok) = false)
    by (rewrite Htok; now apply falsy_some).
  destruct E as [[-> [(F & _) | [(_ & Hc & ->) | [(_ & _ & F & _) | [(_ & _ & _ & F & _) |
                     (i & ap & Ht & _ & Hc & _ & Hid & ->)]]]]] |
                 (i & ap & Ht & _ & Hc & Ha & Hid & -> & ->)]; try congruence.
  - (* the conflict query selects a row *)
    apply Hiff in Hc. repeat split; auto; try discriminate.
    intros r [<- | <-]; unfold overlap; rewrite TextFacts.lt_irrefl;
      [apply andb_false_r | reflexivity].
  - (* the derived id is taken *)
    assert (i = isic) by congruence. subst i. apply Hids in Hid.
    assert (Hno : ~ exists r, In r (reservations st) /\ overlapping d s e k a r)
      by (intros Hex; apply Hiff in Hex; congruence).
    repeat split; auto; try discriminate; try tauto.
    intros r [<- | <-]; unfold overlap; rewrite TextFacts.lt_irrefl;
      [apply andb_false_r | reflexivity].
  - (* accepted *)
    assert (i = isic) by congruence. subst i.
    assert (ap = app) by congruence. subst ap.
    assert (Hno : ~ exists r, In r (reservations st) /\ overlapping d s e k a r)
      by (intros Hex; apply Hiff in Hex; congruence).
    assert (Hno' : ~ exists r, In r (reservations st)
                               /\ r_id r = reservation_id_of isic d s e
                               /\ r_status r = confirmed)
      by (intros Hex; apply Hids in Hex; congruence).
    simpl. repeat split; auto; try discriminate; try tauto.
    intros r [<- | <-]; unfold overlap; rewrite TextFacts.lt_irrefl;
      [apply andb_false_r | reflexivity].
Qed.

Lemma book_rejects_iff_overlap_or_confirmed_id_witness :
  fst (create_reservation booked_once may1 "10:15" "10:45" 1 "k1-oven3" "tokB")
    = Raise (HTTPException 400 "Time slot already reserved")
  <-> exists r, In r (reservations booked_once)
                /\ overlapping may1 "10:15" "10:45" 1 "k1-oven3" r.
Proof.
  apply (book_rejects_iff_overlap_or_confirmed_id
           booked_once may1 "10:15" "10:45" 1 "k1-oven3" "tokB" "S0987654321" oven1).
  - vm_compute. reflexivity.
  - discriminate.
  - vm_compute. reflexivity.
  - vm_compute. reflexivity.
  - vm_compute. reflexivity.
  - intros r Hr _. vm_compute in Hr. destruct Hr as [<- | []]. vm_compute. reflexivity.
  - intros r Hr _. vm_compute in Hr. destruct Hr as [<- | []]. reflexivity.
Defined.

(** C3 as stated fails: the session that holds the oven from 10:00 to 10:30
    asks for a microwave, on which nothing is booked, for the same times;
    the derived id is held by its confirmed reservation and the request is
    rejected. *)
Lemma book_rejects_without_overlap :
  existsb (fun r => String.eqb (r_appliance_id r) "k1-microwave1")
          (reservations booked_once) = false
  /\ conflicts booked_once may1 "10:00" "10:30" 1 "k1-microwave1" = 0%nat
  /\ lookup_appliance booked_once "k1-microwave1"
     = Some (mkAppliance "k1-microwave1" 1 "microwave" "Microwave 1")
  /\ map (fun r => (r_id r, r_status r)) (reservations booked_once)
     = [("S1234567890_2024-05-01_10:00_10:30", confirmed)]
  /\ create_reservation booked_once may1 "10:00" "10:30" 1 "k1-microwave1" "tokA"
     = (Raise ConstraintException, booked_once).
Proof. vm_compute. repeat split; reflexivity. Qed.

(** ** Requests with start >= end (C4) *)

(** C4, amended: book compares start with end nowhere.  For every
    authenticated caller, a request with start >= end is accepted, and
    appended to the table as a confirmed reservation, whenever the conflict
    query finds no row, the appliance exists, the kitchen id fits the
    INTEGER column and the derived id is unused; it is accepted only if
    the conflict query finds no row, the appliance exists, the kitchen id
    fits and no confirmed reservation holds the derived id; whenever book
    rejects, the reservation store is unchanged. *)
Theorem book_ignores_interval_order st d s e k a tok :
  Text.le e s = true ->
  (is_return (fst (create_reservation st d s e k a tok)) = false ->
   snd (create_reservation st d s e k a tok) = st)
  /\ (forall isic app,
        verify_token st tok = Some isic -> isic <> "" ->
        conflicts st d s e k a = 0%nat ->
        lookup_appliance st a = Some app ->
        fits_INTEGER k = true ->
        existsb (has_id (reservation_id_of isic d s e)) (reservations st) = false ->
        fst (create_reservation st d s e k a tok) = Return (reservation_id_of isic d s e)
        /\ reservations (snd (create_reservation st d s e k a tok))
           = (reservations st
                ++ [mkReservation (reservation_id_of isic d s e) isic d s e k a
                                  (a_type app) confirmed])%list)
  /\ (is_return (fst (create_reservation st d s e k a tok)) = true ->
      exists isic app,
        verify_token st tok = Some isic /\ isic <> ""
        /\ conflicts st d s e k a = 0%nat
        /\ lookup_appliance st a = Some app
        /\ fits_INTEGER k = true
        /\ forall r, In r (reservations st) -> r_id r = reservation_id_of isic d s e ->
                     r_status r <> confirmed).
Proof.
  intros _. split; [apply create_reservation_raise_unchanged|].
  assert (Hz : forall n : nat, (0 <? n)%nat = false <-> n = 0%nat).
  { intros n. rewrite Nat.ltb_ge. lia. }
  split.
  - intros isic app Htok Hne Hc Happ Hk Hid.
    rewrite (create_reservation_accepts st d s e k a tok isic app); auto.
    apply Hz in Hc. unfold conflicts in Hc. now rewrite count_pos_existsb in Hc.
  - intros Hret. pose proof (create_reservation_return_fits _ _ _ _ _ _ _ Hret) as Hk.
    destruct (create_reservation st d s e k a tok) as [res st'] eqn:E.
    apply create_reservation_inv in E. simpl fst in Hret.
    destruct E as [[_ [(_ & ->) | [(_ & _ & ->) | [(_ & _ & _ & ->) | [(_ & _ & _ & _ & ->) |
                      (? & ? & _ & _ & _ & _ & _ & ->)]]]]] |
                    (isic & app & Htok & Hne & Hc & Happ & Hid & -> & ->)];
      try discriminate.
    exists isic, app. repeat split; try assumption.
    + apply Hz. unfold conflicts. now rewrite count_pos_existsb.
    + intros r Hr Heq _.
      pose proof (proj1 (existsb_false_forall _ _) Hid r Hr) as F.
      unfold has_id in F. rewrite Heq, String.eqb_refl in F. discriminate.
Qed.

Lemma book_ignores_interval_order_witness :
  Text.le "10:00" "11:00" = true
  /\ fst (create_reservation (fresh t0) may1 "11:00" "10:00" 1 "k1-oven3" "tokA")
     = Return (reservation_id_of "S1234567890" may1 "11:00" "10:00").
Proof.
  split; [reflexivity|].
  apply (proj1 (proj2 (book_ignores_interval_order (fresh t0) may1 "11:00" "10:00" 1
                         "k1-oven3" "tokA" eq_refl))
           "S1234567890" oven1).
  - vm_compute. reflexivity.
  - discriminate.
  - vm_compute. reflexivity.
  - vm_compute. reflexivity.
  - vm_compute. reflexivity.
  - vm_compute. reflexivity.
Defined.

(** C4 as stated fails: a request that ends before it starts is stored. *)
Lemma book_accepts_start_after_end :
  Text.le "10:00" "11:00" = true
  /\ fst (create_reservation (fresh t0) may1 "11:00" "10:00" 1 "k1-oven3" "tokA")
     = Return "S1234567890_2024-05-01_11:00_10:00"
  /\ reservations (snd (create_reservation (fresh t0) may1 "11:00" "10:00" 1 "k1-oven3" "tokA"))
     = [new_row "S1234567890" may1 "11:00" "10:00" 1 "k1-oven3" oven1].
Proof. vm_compute. repeat split; reflexivity. Qed.

(** ** Unknown appliances (C5) *)

Lemma run_appliances_known st0 rqs :
  reservations st0 = [] -> appliances_known (run st0 rqs).
Proof.
  intros H0. apply (run_invariant appliances_known).
  - apply step_appliances_known.
  - intros r Hr. rewrite H0 in Hr. destruct Hr.
Qed.

(** C5, amended: in every state reached from an empty reservation table,
    book by a valid session for an appliance id that is not in the catalogue
    answers "Invalid appliance" and persists nothing.  Whether the appliance
    belongs to the requested kitchen id is not looked at. *)
Theorem book_unknown_appliance_rejected st0 rqs d s e k a tok isic :
  reservations st0 = [] ->
  verify_token (run st0 rqs) tok = Some isic -> isic <> "" ->
  lookup_appliance (run st0 rqs) a = None ->
  create_reservation (run st0 rqs) d s e k a tok
  = (Raise (HTTPException 400 "Invalid appliance"), run st0 rqs).
Proof.
  intros H0 Htok Hne Hnone.
  pose proof (run_appliances_known st0 rqs H0) as Hknown.
  assert (Hc : existsb (clashes d s e k a) (reservations (run st0 rqs)) = false).
  { apply existsb_false_forall. intros r Hr. unfold clashes.
    destruct (same_slot d k a r) eqn:Hs; [|reflexivity].
    apply same_slot_spec in Hs. destruct Hs as (_ & _ & Ha & _).
    specialize (Hknown r Hr). rewrite Ha in Hknown. contradiction. }
  unfold create_reservation, conflicts.
  rewrite Htok. apply falsy_some in Hne. rewrite Hne.
  rewrite count_pos_existsb, Hc, Hnone. reflexivity.
Qed.

Lemma book_unknown_appliance_rejected_witness :
  create_reservation (run (fresh t0) morning_run) may1 "12:00" "12:30" 1 "k9-grill1" "tokA"
  = (Raise (HTTPException 400 "Invalid appliance"), run (fresh t0) morning_run).
Proof.
  apply (book_unknown_appliance_rejected (fresh t0) morning_run may1 "12:00" "12:30" 1
           "k9-grill1" "tokA" "S1234567890").
  - vm_compute. reflexivity.
  - vm_compute. reflexivity.
  - discriminate.
  - vm_compute. reflexivity.
Defined.

(** C5 as stated fails: the oven of kitchen 1 is booked under kitchen id 2
    and the reservation is stored. *)
Lemma book_accepts_appliance_of_other_kitchen :
  lookup_appliance (fresh t0) "k1-oven3" = Some oven1
  /\ a_kitchen_id oven1 = 1%Z
  /\ fst (create_reservation (fresh t0) may1 "10:00" "10:30" 2 "k1-oven3" "tokA")
     = Return "S1234567890_2024-05-01_10:00_10:30"
  /\ reservations (snd (create_reservation (fresh t0) may1 "10:00" "10:30" 2 "k1-oven3" "tokA"))
     = [new_row "S1234567890" may1 "10:00" "10:30" 2 "k1-oven3" oven1].
Proof. vm_compute. repeat split; reflexivity. Qed.

(** ** Failure modes of cancellation (C6) *)

(** C6, amended: cancel does not tell its two failures apart.  For a valid
    session, a reservation id that matches no stored reservation and a
    reservation owned by another identity both end in the one error 403
    "Not your reservation", and in both cases no state changes. *)
Theorem cancel_failures_share_one_error st rid tok isic :
  verify_token st tok = Some isic -> isic <> "" ->
  List.find (has_id rid) (reservations st) = None
  \/ (exists row, List.find (has_id rid) (reservations st) = Some row
                  /\ r_isic_number row <> isic) ->
  cancel_reservation st rid tok
  = (Raise (HTTPException 403 "Not your reservation"), st).
Proof.
  intros Htok Hne H. unfold cancel_reservation.
  rewrite Htok. apply falsy_some in Hne. rewrite Hne. simpl default.
  destruct H as [-> | (row & -> & Hown)]; [reflexivity|].
  apply String.eqb_neq in Hown. rewrite Hown. reflexivity.
Qed.

Lemma cancel_failures_share_one_error_witness :
  cancel_reservation booked_once "S1234567890_2024-05-01_10:00_10:30" "tokB"
  = (Raise (HTTPException 403 "Not your reservation"), booked_once).
Proof.
  apply (cancel_failures_share_one_error booked_once
           "S1234567890_2024-05-01_10:00_10:30" "tokB" "S0987654321").
  - vm_compute. reflexivity.
  - discriminate.
  - right. exists rowA. split; [vm_compute; reflexivity | discriminate].
Defined.

(** C6 as stated fails: an unknown reservation id and a reservation of
    another identity get the same answer. *)
Lemma cancel_unknown_and_foreign_same_error :
  List.find (has_id "no-such-reservation") (reservations booked_once) = None
  /\ List.find (has_id "S1234567890_2024-05-01_10:00_10:30") (reservations booked_once)
     = Some rowA
  /\ verify_token booked_once "tokB" = Some "S0987654321"
  /\ r_isic_number rowA = "S1234567890"
  /\ fst (cancel_reservation booked_once "no-such-reservation" "tokB")
     = fst (cancel_reservation booked_once "S1234567890_2024-05-01_10:00_10:30" "tokB").
Proof. vm_compute. repeat split; reflexivity. Qed.

(** ** The advertised limits (C10) *)

(** C10, amended: booking enforces none of the limits the availability
    response advertises.  For every valid session token, existing appliance
    and kitchen id that fits the INTEGER column, a book request with
    start < end that lies outside the advertised operating hours, or is
    shorter than the advertised minDuration or longer than the advertised
    maxDuration, is accepted and appended to the table as a confirmed
    reservation, provided its derived id is unused and every confirmed
    reservation stored for its kitchen id, appliance and date has
    start < end and does not overlap it (s1 < e2 AND s2 < e1 fails), times
    compared as text throughout. *)
Theorem book_enforces_no_advertised_limit st d s e k a tok isic app :
  verify_token st tok = Some isic -> isic <> "" ->
  lookup_appliance st a = Some app ->
  fits_INTEGER k = true ->
  breaks_advertised_limits (get_availability st d k) s e ->
  Text.lt s e = true ->
  (forall r, In r (reservations st) ->
             r_date r = d -> r_kitchen_id r = k -> r_appliance_id r = a ->
             r_status r = confirmed ->
             well_formed r = true
             /\ overlap (r_start_time r) (r_end_time r) s e = false) ->
  existsb (has_id (reservation_id_of isic d s e)) (reservations st) = false ->
  fst (create_reservation st d s e k a tok) = Return (reservation_id_of isic d s e)
  /\ reservations (snd (create_reservation st d s e k a tok))
     = (reservations st
          ++ [mkReservation (reservation_id_of isic d s e) isic d s e k a
                            (a_type app) confirmed])%list
  /\ tokens (snd (create_reservation st d s e k a tok)) = tokens st
  /\ appliances (snd (create_reservation st d s e k a tok)) = appliances st.
Proof.
  intros Htok Hne Happ Hk _ Hse Hfree Hid.
  rewrite (create_reservation_accepts st d s e k a tok isic app); auto.
  apply existsb_false_forall. intros r Hr. unfold clashes.
  destruct (same_slot d k a r) eqn:Hs; [|reflexivity].
  simpl. apply same_slot_spec in Hs. destruct Hs as (Hd & Hk' & Ha & Hst).
  destruct (Hfree r Hr Hd Hk' Ha Hst) as [Hwf Ho].
  destruct (time_clash s e r) eqn:Hc; [|reflexivity].
  rewrite (time_clash_overlap s e r Hwf Hse Hc) in Ho. discriminate.
Qed.

Lemma book_enforces_no_advertised_limit_witness :
  breaks_advertised_limits (get_availability booked_once may1 1) "02:00" "02:03"
  /\ fst (create_reservation booked_once may1 "02:00" "02:03" 1 "k1-oven3" "tokA")
     = Return (reservation_id_of "S1234567890" may1 "02:00" "02:03").
Proof.
  assert (Hb : breaks_advertised_limits (get_availability booked_once may1 1) "02:00" "02:03").
  { exists 120%nat, 123%nat, 360%nat, 1380%nat.
    repeat split; try (vm_compute; reflexivity). left. lia. }
  split; [exact Hb|].
  apply (book_enforces_no_advertised_limit booked_once may1 "02:00" "02:03" 1
           "k1-oven3" "tokA" "S1234567890" oven1).
  - vm_compute. reflexivity.
  - discriminate.
  - vm_compute. reflexivity.
  - vm_compute. reflexivity.
  - exact Hb.
  - vm_compute. reflexivity.
  - intros r Hr _ _ _ _. vm_compute in Hr. destruct Hr as [<- | []].
    vm_compute. split; reflexivity.
  - vm_compute. reflexivity.
Defined.

(** C10 as stated fails: against the oven booked from 10:00 to 10:30 by
    another identity, a request from 10:00 to 10:00 (duration 0, below the
    advertised minimum) overlaps nothing and has an unused id, and is
    answered "Time slot already reserved"; so is a request from 05:10 to
    05:20, outside the advertised hours, against a stored reservation from
    05:30 to 05:00. *)
Lemma book_rejects_limit_breaking_request_without_overlap :
  breaks_advertised_limits (get_availability booked_once may1 1) "10:00" "10:00"
  /\ map (fun r => (r_status r, r_start_time r, r_end_time r,
                    overlap (r_start_time r) (r_end_time r) "10:00" "10:00"))
         (reservations booked_once)
     = [(confirmed, "10:00", "10:30", false)]
  /\ verify_token booked_once "tokB" = Some "S0987654321"
  /\ lookup_appliance booked_once "k1-oven3" = Some oven1
  /\ existsb (has_id (reservation_id_of "S0987654321" may1 "10:00" "10:00"))
             (reservations booked_once) = false
  /\ create_reservation booked_once may1 "10:00" "10:00" 1 "k1-oven3" "tokB"
     = (Raise (HTTPException 400 "Time slot already reserved"), booked_once)
  /\ (let st := run (fresh t0) [Reserve may1 "05:30" "05:00" 1 "k1-oven3" "tokA"] in
      map (fun r => (r_status r, r_start_time r, r_end_time r,
                     overlap (r_start_time r) (r_end_time r) "05:10" "05:20"))
          (reservations st)
      = [(confirmed, "05:30", "05:00", false)]
      /\ create_reservation st may1 "05:10" "05:20" 1 "k1-oven3" "tokB"
         = (Raise (HTTPException 400 "Time slot already reserved"), st)).
Proof.
  split.
  - exists 600%nat, 600%nat, 360%nat, 1380%nat.
    repeat split; try (vm_compute; reflexivity). right. right. left. vm_compute. reflexivity.
  - vm_compute. repeat split; reflexivity.
Qed.

(** ** Availability (C9) *)

Lemma group_step_lookup acc res a :
  default [] (group_step acc res !! a)
  = (default [] (acc !! a)
     ++ (if String.eqb res.1.1 a then [slot_of_row res] else []))%list.
Proof.
  destruct res as [[x s] e]. unfold group_step, slot_of_row. simpl.
  destruct (String.eqb x a) eqn:E.
  - apply String.eqb_eq in E. subst x. now rewrite lookup_insert_eq.
  - apply String.eqb_neq in E. rewrite lookup_insert_ne by exact E.
    now rewrite app_nil_r.
Qed.

Lemma fold_group_lookup rows acc a :
  default [] (fold_left group_step rows acc !! a)
  = (default [] (acc !! a)
     ++ map slot_of_row (List.filter (fun res => String.eqb res.1.1 a) rows))%list.
Proof.
  revert acc. induction rows as [|res rows IH]; intros acc; simpl.
  - now rewrite app_nil_r.
  - rewrite IH, group_step_lookup.
    destruct (String.eqb res.1.1 a); simpl.
    + now rewrite <- app_assoc.
    + now rewrite app_nil_r.
Qed.

Lemma group_rows_lookup rows a :
  default [] (group_rows rows !! a)
  = map slot_of_row (List.filter (fun res => String.eqb res.1.1 a) rows).
Proof. unfold group_rows. now rewrite fold_group_lookup, lookup_empty. Qed.

Lemma filter_map_swap {A B} (f : A -> B) (q : B -> bool) (l : list A) :
  List.filter q (map f l) = map f (List.filter (fun x => q (f x)) l).
Proof.
  induction l as [|x l IH]; simpl; [reflexivity|].
  destruct (q (f x)); simpl; now rewrite IH.
Qed.

Lemma filter_filter {A} (p q : A -> bool) (l : list A) :
  List.filter q (List.filter p l) = List.filter (fun x => p x && q x) l.
Proof.
  induction l as [|x l IH]; simpl; [reflexivity|].
  destruct (p x); simpl; [destruct (q x); simpl|]; now rewrite IH.
Qed.

(** The slots listed for appliance [a]: one per confirmed reservation of
    the requested date, kitchen id and appliance, in table order. *)
Lemma listed_slots st d k a :
  default [] (group_rows (day_rows st d k) !! a)
  = map (fun r => mkSlot (r_appliance_id r) (r_start_time r) (r_end_time r) 1)
        (List.filter (same_slot d k a) (reservations st)).
Proof.
  rewrite group_rows_lookup. unfold day_rows.
  rewrite filter_map_swap, filter_filter, map_map. simpl.
  f_equal. apply filter_ext. intros r. unfold same_slot.
  destruct (String.eqb (r_date r) d), (Z.eqb (r_kitchen_id r) k),
    (Status_eqb (r_status r) confirmed), (String.eqb (r_appliance_id r) a); reflexivity.
Qed.

Lemma availability_entries st d k :
  av_appliances (get_availability st d k)
  = map (entry_of st d k)
        (List.filter (fun a => Z.eqb (a_kitchen_id a) k) (appliances st)).
Proof.
  unfold get_availability. simpl. apply map_ext. intros a.
  unfold entry_of. now rewrite listed_slots.
Qed.

(** C9, amended: for every kitchen and date the availability query returns
    one entry per appliance of that kitchen, in catalogue order; the
    (start, end) pairs listed for an appliance are exactly those of the
    reservations with status=confirmed, that kitchen id, that appliance id
    and that date, in the order of the reservation table; an appliance
    without such reservations appears with an empty sequence. *)
Theorem availability_lists_confirmed_intervals st d k :
  map applianceId (av_appliances (get_availability st d k))
  = map a_id (List.filter (fun a => Z.eqb (a_kitchen_id a) k) (appliances st))
  /\ (forall en, In en (av_appliances (get_availability st d k)) ->
        map (fun sl => (slot_startTime sl, slot_endTime sl)) (entry_reservations en)
        = map (fun r => (r_start_time r, r_end_time r))
              (List.filter (same_slot d k (applianceId en)) (reservations st)))
  /\ (forall en, In en (av_appliances (get_availability st d k)) ->
        (forall r, In r (reservations st) -> same_slot d k (applianceId en) r = false) ->
        entry_reservations en = []).
Proof.
  rewrite availability_entries. split; [|split].
  - rewrite map_map. reflexivity.
  - intros en Hen. apply in_map_iff in Hen. destruct Hen as (a & <- & _).
    simpl. now rewrite map_map.
  - intros en Hen Hnone. apply in_map_iff in Hen. destruct Hen as (a & <- & _).
    simpl in *.
    replace (List.filter (same_slot d k (a_id a)) (reservations st)) with (@nil Reservation);
      [reflexivity|].
    symmetry. induction (reservations st) as [|r rs IH]; [reflexivity|].
    simpl. rewrite (Hnone r) by (left; reflexivity).
    apply IH. intros x Hx. apply Hnone. now right.
Qed.

(** The [id] field of a listed slot carries the appliance id of its entry
    (the query does not select the reservation id). *)
Lemma listed_slot_id_is_appliance_id st d k en sl :
  In en (av_appliances (get_availability st d k)) ->
  In sl (entry_reservations en) ->
  slot_id sl = applianceId en /\ slot_userId sl = 1%Z.
Proof.
  rewrite availability_entries. intros Hen Hsl.
  apply in_map_iff in Hen. destruct Hen as (a & <- & _). simpl in *.
  apply in_map_iff in Hsl. destruct Hsl as (r & <- & Hr). simpl.
  apply filter_In in Hr. destruct Hr as [_ Hs].
  apply same_slot_spec in Hs. tauto.
Qed.

(** C9 as stated fails: the oven of kitchen 1 has a confirmed reservation
    on the date, stored under kitchen id 2; the listing of kitchen 1 shows
    the oven with no interval. *)
Lemma availability_misses_reservation_of_other_kitchen_id :
  (exists r, In r (reservations booked_under_kitchen2)
             /\ r_appliance_id r = "k1-oven3" /\ r_date r = may1
             /\ r_status r = confirmed)
  /\ map (fun en => (applianceId en, entry_reservations en))
         (av_appliances (get_availability booked_under_kitchen2 may1 1))
     = [ ("k1-microwave1", []); ("k1-microwave2", []); ("k1-oven3", []);
         ("k1-stove_left4", []); ("k1-stove_right5", []) ].
Proof.
  split.
  - exists (new_row "S1234567890" may1 "10:00" "10:30" 2 "k1-oven3" oven1).
    vm_compute. repeat split; try reflexivity. left. reflexivity.
  - vm_compute. reflexivity.
Qed.

(** ** Order facts on binary64 values *)

Module FloatOrder.




End FloatOrder.

(** ** Identity resolution (C8) and the door check (C7) *)

Section FaceMatchingFacts.

Variable np_dot : list float -> list float -> float.
Variable np_linalg_norm : list float -> float.

Local Abbreviation sim := (cosine_similarity np_dot np_linalg_norm).
Local Abbreviation scan' := (scan np_dot np_linalg_norm).
Local Abbreviation resolve := (find_matching_user np_dot np_linalg_norm).
Local Abbreviation backed' := (backed np_dot np_linalg_norm).








(** C7, amended: if the probe resolves to no identity the result is false;
    if it resolves to a non-empty identity I, the result is true iff some
    reservation owned by I with status confirmed has its date equal to
    now formatted as %Y-%m-%d and start <= now formatted as %H:%M <= end,
    both comparisons inclusive and on text; the seconds of now play no
    part. *)
Theorem door_check_decision st embedding now :
  (resolve st embedding threshold_default = None ->
   esp_check np_dot np_linalg_norm st embedding now = false)
  /\ (forall isic,
        resolve st embedding threshold_default = Some isic -> isic <> "" ->
        (esp_check np_dot np_linalg_norm st embedding now = true
         <-> exists r, In r (reservations st)
                       /\ r_isic_number r = isic /\ r_status r = confirmed
                       /\ r_date r = strftime_Ymd now
                       /\ Text.le (r_start_time r) (strftime_HM now) = true
                       /\ Text.le (strftime_HM now) (r_end_time r) = true))
  /\ (forall s, esp_check np_dot np_linalg_norm st embedding (with_second now s)
                = esp_check np_dot np_linalg_norm st embedding now).
Proof.
  split; [|split].
  - intros H. unfold esp_check. rewrite H. reflexivity.
  - intros isic H Hne. unfold esp_check. rewrite H.
    apply falsy_some in Hne. rewrite Hne. simpl default.
    rewrite count_pos_existsb, existsb_exists.
    split.
    + intros (r & Hr & Ha). exists r. split; [exact Hr|].
      unfold active_now in Ha. rewrite !andb_true_iff, !String.eqb_eq in Ha.
      destruct Ha as ((((? & ?) & ?) & ?) & Hs).
      destruct (r_status r); [|discriminate]. auto 10.
    + intros (r & Hr & Ho & Hs & Hd & H1 & H2). exists r. split; [exact Hr|].
      unfold active_now. rewrite !andb_true_iff, !String.eqb_eq, Hs. auto 10.
  - intros s. reflexivity.
Qed.

End FaceMatchingFacts.

(** ** Face matching and the door check on sample data *)



Lemma door_check_decision_witness :
  esp_check dot_seq norm_seq door_state [1%float; 0%float] (mkDatetime 2024 5 1 10 30 0)
  = true.
Proof.
  apply (proj1 (proj2 (door_check_decision dot_seq norm_seq door_state
                         [1%float; 0%float] (mkDatetime 2024 5 1 10 30 0)))
           "S1234567890").
  - vm_compute. reflexivity.
  - discriminate.
  - exists rowA. vm_compute. repeat split; try reflexivity. left. reflexivity.
Defined.

(** C7 as stated fails: Alice's reservation ends at 10:30; one second after
    that instant, and up to 10:30:59, the door still opens. *)
Lemma door_opens_one_second_after_end :
  reservations door_state = [rowA]
  /\ r_end_time rowA = "10:30"
  /\ minutes_of "10:30" = Some 630%nat
  /\ seconds_of_day (mkDatetime 2024 5 1 10 30 1) = (630 * 60 + 1)%Z
  /\ esp_check dot_seq norm_seq door_state [1%float; 0%float] (mkDatetime 2024 5 1 10 30 1)
     = true
  /\ esp_check dot_seq norm_seq door_state [1%float; 0%float] (mkDatetime 2024 5 1 10 30 59)
     = true
  /\ esp_check dot_seq norm_seq door_state [1%float; 0%float] (mkDatetime 2024 5 1 10 31 0)
     = false
  /\ esp_check dot_seq norm_seq door_state [1%float; 0%float] (mkDatetime 2024 5 1 9 59 59)
     = false.
Proof. vm_compute. repeat split; reflexivity. Qed.
